(** * scripts/lora_part_merge.py: merging LoRA weights into one submodule

    A shallow embedding of [merge_lora], the single function of the
    script, and the properties of its control flow.

    The script is a sequence of calls into [transformers], [peft] and the
    Python standard library.  The third-party calls are parameters of the
    development (a record of state transformers, [library]); the Python
    built-ins the script uses ([hasattr], [getattr], [setattr], [print],
    [os.path.join], [os.path.exists], [shutil.copy]) are modelled over an
    explicit store: a heap of objects with named attributes and a disk
    mapping path strings to the contents of regular files.  What the
    operating system decides beyond that (which paths are directories,
    which spellings name one file, whether a write is refused) is a
    parameter as well. *)

From Stdlib Require Import String Ascii ZArith.
From Stdlib.Strings Require Import Byte.
From stdpp Require Import base option gmap strings list fin_maps.

Local Open Scope list_scope.

(** ** Exceptions *)

(** The exception classes that matter for [except Exception]: the first
    three derive from [BaseException] only, every other one from
    [Exception]. *)
Inductive exn_class :=
| KeyboardInterrupt
| SystemExit
| GeneratorExit
| AttributeError
| FileNotFoundError
| SameFileError
| OSError
| ValueError
| TypeError
| RuntimeError
| ImportError
| OtherException (name : string).

Record exn := Exn { exn_cls : exn_class; exn_msg : string }.

(** [isinstance(e, Exception)] *)
Definition is_Exception (e : exn) : bool :=
  match exn_cls e with
  | KeyboardInterrupt | SystemExit | GeneratorExit => false
  | _ => true
  end.

Inductive result (A : Type) :=
| Ok (a : A)
| Raise (e : exn).
Arguments Ok {A} a.
Arguments Raise {A} e.

(** ** Store: heap of objects and disk *)

Definition loc := positive.

Inductive val :=
| VNone
| VBool (b : bool)
| VInt (z : Z)
| VStr (s : string)
| VRef (l : loc).

(** An object is its attribute dictionary. *)
Abbreviation pyobj := (gmap string val).
Abbreviation file := (list Byte.byte).

Record ext := Ext {
  heap : gmap loc pyobj;
  disk : gmap string file
}.

(** ** Observable history *)

Inductive auto_class := AutoModel | AutoTokenizer | AutoProcessor.

(** Which local variable of [merge_lora] a [save_pretrained] call is made on. *)
Inductive role := RModel | RTokenizer | RProcessor.

Inductive event :=
| EvFromPretrained (c : auto_class) (path : string)
| EvHasattr (o : loc) (name : string)
| EvGetattr (o : loc) (name : string)
| EvLoadAdapter (sub : val) (path : string)
| EvMergeAndUnload (lora : loc)
| EvSetattr (o : loc) (name : string) (v : val)
| EvSavePretrained (r : role) (o : loc) (path : string)
| EvExists (path : string)
| EvCopy (src dst : string).

(** The world of a run: the store, what has been printed, and the calls
    issued so far, each with the store it was issued in. *)
Record world := World {
  w_ext : ext;
  w_stdout : list string;
  w_trace : list (event * ext)
}.

Definition init_world (e : ext) : world := World e [] [].

(** ** The monad of the script: state and exceptions *)

Definition M (A : Type) : Type := world -> result A * world.

Definition ret {A} (a : A) : M A := fun w => (Ok a, w).

Definition bind {A B} (c : M A) (k : A -> M B) : M B :=
  fun w =>
    match c w with
    | (Ok a, w') => k a w'
    | (Raise e, w') => (Raise e, w')
    end.

Declare Scope py_scope.
Delimit Scope py_scope with py.
Notation "x <- c ;;; k" := (bind c (fun x => k))
  (at level 100, c at next level, right associativity) : py_scope.
Notation "c ;;; k" := (bind c (fun _ => k))
  (at level 100, right associativity) : py_scope.

(** [raise e] *)
Definition raise {A} (e : exn) : M A := fun w => (Raise e, w).

(** [print(s)] *)
Definition print (s : string) : M unit :=
  fun w => (Ok tt, World (w_ext w) (w_stdout w ++ [s]) (w_trace w)).

(** A call that acts on the store; it is recorded before it runs. *)
Definition call {A} (ev : event) (f : ext -> result A * ext) : M A :=
  fun w =>
    let '(r, e') := f (w_ext w) in
    (r, World e' (w_stdout w) (w_trace w ++ [(ev, w_ext w)])).

(** [try: c  except Exception: h] *)
Definition try_except_Exception {A} (c : M A) (h : M A) : M A :=
  fun w =>
    match c w with
    | (Ok a, w') => (Ok a, w')
    | (Raise e, w') => if is_Exception e then h w' else (Raise e, w')
    end.

(** ** Python built-ins *)

Definition attr (e : ext) (o : loc) (name : string) : option val :=
  heap e !! o ≫= (fun ob => ob !! name).

Definition py_hasattr (o : loc) (name : string) (e : ext) : result bool * ext :=
  (Ok (match attr e o name with Some _ => true | None => false end), e).

Definition py_getattr (o : loc) (name : string) (e : ext) : result val * ext :=
  match attr e o name with
  | Some v => (Ok v, e)
  | None => (Raise (Exn AttributeError ("object has no attribute '" +:+ name +:+ "'")), e)
  end.

Definition set_attr (o : loc) (name : string) (v : val) (e : ext) : ext :=
  Ext (<[o := <[name := v]> (default ∅ (heap e !! o))]> (heap e)) (disk e).

Definition py_setattr (o : loc) (name : string) (v : val) (e : ext) : result unit * ext :=
  (Ok tt, set_attr o name v e).

Definition hasattr o name : M bool := call (EvHasattr o name) (py_hasattr o name).
Definition getattr o name : M val := call (EvGetattr o name) (py_getattr o name).
Definition setattr o name v : M unit := call (EvSetattr o name v) (py_setattr o name v).

(** [s.endswith("/")] *)
Fixpoint endswith_sep (s : string) : bool :=
  match s with
  | EmptyString => false
  | String c EmptyString => Ascii.eqb c "/"
  | String _ s' => endswith_sep s'
  end.

(** [s.startswith("/")] *)
Definition startswith_sep (s : string) : bool :=
  match s with
  | String c _ => Ascii.eqb c "/"
  | EmptyString => false
  end.

(** [os.path.join(a, b)] (posixpath) *)
Definition os_path_join (a b : string) : string :=
  if startswith_sep b then b
  else if (String.eqb a "" || endswith_sep a)%bool then a +:+ b
  else a +:+ "/" +:+ b.

Definition path_exists (e : ext) (p : string) : bool :=
  match disk e !! p with Some _ => true | None => false end.

Definition py_exists (p : string) (e : ext) : result bool * ext :=
  (Ok (path_exists e p), e).

Definition os_path_exists p : M bool := call (EvExists p) (py_exists p).

(** ** The library and the operating system *)

(** [transformers] and [peft] are not part of the script: each entry point
    is an arbitrary function of the store that returns or raises.  The
    last four fields are what [shutil.copy] asks of Python and of the
    operating system: [os.path.isdir] for a path that holds no regular
    file, [os.path.samefile] for two spellings of a path, any failure of
    opening, writing or [copymode] (with the store it leaves), and [repr]
    on a path. *)
Record library := Library {
  AutoModel_from_pretrained : string -> ext -> result loc * ext;
  AutoTokenizer_from_pretrained : string -> ext -> result loc * ext;
  AutoProcessor_from_pretrained : string -> ext -> result loc * ext;
  PeftModel_from_pretrained : val -> string -> ext -> result loc * ext;
  merge_and_unload : loc -> ext -> result loc * ext;
  save_pretrained : loc -> string -> ext -> result unit * ext;
  os_path_isdir : string -> ext -> bool;
  os_path_samefile : string -> string -> ext -> bool;
  copyfile_fails : string -> string -> ext -> option (exn * ext);
  py_repr : string -> string
}.

(** ["/" in s] *)
Fixpoint has_sep (s : string) : bool :=
  match s with
  | EmptyString => false
  | String c s' => (Ascii.eqb c "/" || has_sep s')%bool
  end.

(** [os.path.basename(s)]: what follows the last separator. *)
Fixpoint basename (s : string) : string :=
  match s with
  | EmptyString => EmptyString
  | String _ s' => if has_sep s then basename s' else s
  end.

(** [os.path.isdir(p)]: a path that holds a regular file is no directory. *)
Definition is_dir (L : library) (e : ext) (p : string) : bool :=
  match disk e !! p with
  | Some _ => false
  | None => os_path_isdir L p e
  end.

(** [shutil._samefile(a, b)]: an existing file is the same file as itself,
    whatever else the operating system identifies. *)
Definition same_file (L : library) (e : ext) (a b : string) : bool :=
  (bool_decide (a = b) && path_exists e a) || os_path_samefile L a b e.

(** Where [shutil.copy(src, dst)] writes: into [dst] when it is a directory. *)
Definition copy_destination (L : library) (e : ext) (src dst : string) : string :=
  if is_dir L e dst then os_path_join dst (basename src) else dst.

(** [shutil.copy(src, dst)]: choose the destination, refuse to copy a file
    onto itself, then copy the bytes unless the operating system fails;
    the destination is returned. *)
Definition py_copy (L : library) (src dst : string) (e : ext) : result string * ext :=
  let dst' := copy_destination L e src dst in
  if same_file L e src dst'
  then (Raise (Exn SameFileError
                 (py_repr L src +:+ " and " +:+ py_repr L dst' +:+ " are the same file")), e)
  else
    match copyfile_fails L src dst' e with
    | Some (x, e') => (Raise x, e')
    | None =>
        match disk e !! src with
        | Some c => (Ok dst', Ext (heap e) (<[dst' := c]> (disk e)))
        | None =>
            (Raise (Exn FileNotFoundError
                      ("[Errno 2] No such file or directory: " +:+ py_repr L src)), e)
        end
    end.

Definition shutil_copy (L : library) src dst : M string :=
  call (EvCopy src dst) (py_copy L src dst).

(** ** merge_lora *)

Definition default_extra_file : string := "spk_dict.pt".
Definition default_submodule_name : string := "thinker".
Definition default_save_path : string := "./merged_model_checkpoint".

Definition missing_submodule_msg (submodule_name : string) : string :=
  "The model does not have a submodule named '" +:+ submodule_name +:+ "'.".

Definition processor_not_found_msg : string :=
  "Processor configuration not found, skipping processor load.".

Definition copied_msg (extra_file base_model_path save_path : string) : string :=
  "File '" +:+ extra_file +:+ "' copied from " +:+ base_model_path +:+ " to " +:+ save_path +:+ ".".

Definition skipped_msg (extra_file base_model_path : string) : string :=
  "File '" +:+ extra_file +:+ "' not found in " +:+ base_model_path +:+ ", skipping copy.".

Section MergeLora.

Variable L : library.

Local Open Scope py_scope.

(** The three last parameters are optional: [None] is an omitted argument. *)
Definition merge_lora
    (base_model_path lora_checkpoint_path : string)
    (extra_file_arg submodule_name_arg save_path_arg : option string) : M unit :=
  let extra_file := default default_extra_file extra_file_arg in
  let submodule_name := default default_submodule_name submodule_name_arg in
  let save_path := default default_save_path save_path_arg in
  (* 1. Load the original model, tokenizer, and processor *)
  model <- call (EvFromPretrained AutoModel base_model_path)
                (AutoModel_from_pretrained L base_model_path) ;;;
  tokenizer <- call (EvFromPretrained AutoTokenizer base_model_path)
                    (AutoTokenizer_from_pretrained L base_model_path) ;;;
  processor <- try_except_Exception
                 (p <- call (EvFromPretrained AutoProcessor base_model_path)
                            (AutoProcessor_from_pretrained L base_model_path) ;;;
                  ret (Some p))
                 (print processor_not_found_msg ;;;
                  ret None) ;;;
  print "Successfully loaded the original model, tokenizer, and processor (if available)." ;;;
  (* 2. Extract the submodule to be merged *)
  has <- hasattr model submodule_name ;;;
  if negb has then raise (Exn AttributeError (missing_submodule_msg submodule_name)) else
  base_submodule <- getattr model submodule_name ;;;
  print ("Successfully extracted submodule: " +:+ submodule_name +:+ ".") ;;;
  (* 3. Load the LoRA weights onto the extracted submodule *)
  lora_model <- call (EvLoadAdapter base_submodule lora_checkpoint_path)
                     (PeftModel_from_pretrained L base_submodule lora_checkpoint_path) ;;;
  print "LoRA weights loaded successfully." ;;;
  (* 4. Merge the LoRA weights into the submodule and unload the LoRA modules *)
  merged_submodule <- call (EvMergeAndUnload lora_model) (merge_and_unload L lora_model) ;;;
  print "LoRA weights merged successfully." ;;;
  (* 5. Replace the original submodule with the merged submodule in the model *)
  setattr model submodule_name (VRef merged_submodule) ;;;
  (* 6. Save the final merged model along with the tokenizer and processor configuration *)
  call (EvSavePretrained RModel model save_path) (save_pretrained L model save_path) ;;;
  call (EvSavePretrained RTokenizer tokenizer save_path) (save_pretrained L tokenizer save_path) ;;;
  match processor with
  | Some p => call (EvSavePretrained RProcessor p save_path) (save_pretrained L p save_path)
  | None => ret tt
  end ;;;
  print ("Merged model and configuration saved to " +:+ save_path +:+ ".") ;;;
  let source_file := os_path_join base_model_path extra_file in
  let target_file := os_path_join save_path extra_file in
  ex <- os_path_exists source_file ;;;
  if ex then
    shutil_copy L source_file target_file ;;;
    print (copied_msg extra_file base_model_path save_path)
  else
    print (skipped_msg extra_file base_model_path).

End MergeLora.

(** ** Reading a run *)

(** A call of the adapter steps 3 and 4. *)
Definition is_adapter_step (ev : event) : bool :=
  match ev with EvLoadAdapter _ _ | EvMergeAndUnload _ => true | _ => false end.

Definition is_save (ev : event) : bool :=
  match ev with EvSavePretrained _ _ _ => true | _ => false end.

Definition is_copy (ev : event) : bool :=
  match ev with EvCopy _ _ => true | _ => false end.

(** [processor.save_pretrained(save_path)] *)
Definition is_processor_save (ev : event) : bool :=
  match ev with EvSavePretrained RProcessor _ _ => true | _ => false end.

(** A call that can write below the output directory: step 6 and the copy. *)
Definition is_output_step (ev : event) : bool := is_save ev || is_copy ev.

(** The calls issued between two worlds of one run, oldest first. *)
Definition calls_since (w0 w' : world) : list event :=
  (drop (length (w_trace w0)) (w_trace w')).*1.

(** What has been printed between two worlds of one run. *)
Definition printed_since (w0 w' : world) : list string :=
  drop (length (w_stdout w0)) (w_stdout w').

(** What [processor] is bound to after the [try] of step 1. *)
Definition processor_of (rp : result loc) : option loc :=
  match rp with Ok p => Some p | Raise _ => None end.

(** The processor load returned, or raised something [except Exception] takes. *)
Definition recoverable (rp : result loc) : bool :=
  match rp with Ok _ => true | Raise x => is_Exception x end.

Definition loaded_msg : string :=
  "Successfully loaded the original model, tokenizer, and processor (if available).".

(** What step 1 prints. *)
Definition stdout_of_load (rp : result loc) : list string :=
  match rp with
  | Ok _ => [loaded_msg]
  | Raise _ => [processor_not_found_msg; loaded_msg]
  end.

(** Loading the model or the tokenizer raises [x]; the last two indices
    are the store left behind and the calls issued. *)
Inductive loading_raises (L : library) (base : string) (e0 : ext) (x : exn)
  : ext -> list (event * ext) -> Prop :=
| model_raises e1 :
    AutoModel_from_pretrained L base e0 = (Raise x, e1) ->
    loading_raises L base e0 x e1 [(EvFromPretrained AutoModel base, e0)]
| tokenizer_raises m e1 e2 :
    AutoModel_from_pretrained L base e0 = (Ok m, e1) ->
    AutoTokenizer_from_pretrained L base e1 = (Raise x, e2) ->
    loading_raises L base e0 x e2
      [(EvFromPretrained AutoModel base, e0); (EvFromPretrained AutoTokenizer base, e1)].

(** The entry points that only load or merge leave the files selected by
    [P] as they are. *)
Definition loads_keep (L : library) (P : string -> Prop) : Prop :=
  (forall path e r e', AutoModel_from_pretrained L path e = (r, e') ->
     forall p, P p -> disk e' !! p = disk e !! p) /\
  (forall path e r e', AutoTokenizer_from_pretrained L path e = (r, e') ->
     forall p, P p -> disk e' !! p = disk e !! p) /\
  (forall path e r e', AutoProcessor_from_pretrained L path e = (r, e') ->
     forall p, P p -> disk e' !! p = disk e !! p) /\
  (forall sub path e r e', PeftModel_from_pretrained L sub path e = (r, e') ->
     forall p, P p -> disk e' !! p = disk e !! p) /\
  (forall lm e r e', merge_and_unload L lm e = (r, e') ->
     forall p, P p -> disk e' !! p = disk e !! p).

(** ** A small library to run the script on *)

Module Demo.

Definition bytes (s : string) : file := list_byte_of_string s.

Definition model_obj : pyobj :=
  <["thinker" := VRef 2%positive]> (<["talker" := VRef 3%positive]> ∅).

Definition load_model (path : string) (e : ext) : result loc * ext :=
  if path_exists e (os_path_join path "config.json")
  then (Ok 1%positive,
        Ext (<[1%positive := model_obj]>
               (<[2%positive := {["merged" := VBool false]}]>
                  (<[3%positive := {["merged" := VBool false]}]> (heap e))))
            (disk e))
  else (Raise (Exn OSError (path +:+ " does not appear to have a file named config.json")), e).

Definition load_tokenizer (path : string) (e : ext) : result loc * ext :=
  if path_exists e (os_path_join path "tokenizer.json")
  then (Ok 4%positive, Ext (<[4%positive := {["vocab_size" := VInt 8]}]> (heap e)) (disk e))
  else (Raise (Exn OSError ("Can't load tokenizer for '" +:+ path +:+ "'")), e).

(** An empty configuration file is there but cannot be parsed. *)
Definition load_processor (path : string) (e : ext) : result loc * ext :=
  match disk e !! os_path_join path "preprocessor_config.json" with
  | None => (Raise (Exn OSError ("Can't load processor for '" +:+ path +:+ "'")), e)
  | Some [] => (Raise (Exn ValueError "preprocessor_config.json is not a valid JSON file"), e)
  | Some _ => (Ok 5%positive, Ext (<[5%positive := {["sampling_rate" := VInt 16000]}]> (heap e)) (disk e))
  end.

Definition load_adapter (sub : val) (path : string) (e : ext) : result loc * ext :=
  match sub with
  | VRef l =>
      if path_exists e (os_path_join path "adapter_config.json")
      then (Ok 6%positive, Ext (<[6%positive := {["base_model" := VRef l]}]> (heap e)) (disk e))
      else (Raise (Exn ValueError ("Can't find 'adapter_config.json' at '" +:+ path +:+ "'")), e)
  | _ => (Raise (Exn TypeError "not a module"), e)
  end.

Definition merge (lm : loc) (e : ext) : result loc * ext :=
  match attr e lm "base_model" with
  | Some (VRef l) => (Ok l, set_attr l "merged" (VBool true) e)
  | _ => (Raise (Exn AttributeError "object has no attribute 'base_model'"), e)
  end.

Definition save_name (o : loc) : option string :=
  match o with
  | 1%positive => Some "model.safetensors"
  | 4%positive => Some "tokenizer.json"
  | 5%positive => Some "preprocessor_config.json"
  | _ => None
  end.

Definition save (o : loc) (path : string) (e : ext) : result unit * ext :=
  match save_name o with
  | Some n => (Ok tt, Ext (heap e) (<[os_path_join path n := bytes n]> (disk e)))
  | None => (Raise (Exn AttributeError "object has no attribute 'save_pretrained'"), e)
  end.

(** A directory is there when some file lies below it. *)
Definition isdir (p : string) (e : ext) : bool :=
  let q := if endswith_sep p then p else p +:+ "/" in
  (String.eqb p "" || String.eqb p "."
   || existsb (fun k => String.prefix q k && negb (String.eqb q k))
        (map_to_list (disk e)).*1)%bool.

(** A leading "./" does not change what a path names. *)
Definition normal (p : string) : string :=
  match p with
  | String "." (String "/" r) => r
  | _ => p
  end.

Definition samefile (a b : string) (e : ext) : bool :=
  (String.eqb (normal a) (normal b)
   && (path_exists e (normal a) || path_exists e ("./" +:+ normal a)))%bool.

Definition dirname (p : string) : string :=
  if has_sep p
  then String.substring 0 (String.length p - String.length (basename p) - 1) p
  else "".

(** Writing fails when the directory of the destination is missing. *)
Definition copy_fails (src dst : string) (e : ext) : option (exn * ext) :=
  if isdir (dirname dst) e then None
  else Some (Exn FileNotFoundError ("Directory does not exist: " +:+ dst), e).

Definition repr (p : string) : string := "'" +:+ p +:+ "'".

Definition lib : library :=
  Library load_model load_tokenizer load_processor load_adapter merge save
    isdir samefile copy_fails repr.

Definition disk_full : gmap string file :=
  list_to_map [("base/config.json", bytes "{}");
               ("base/tokenizer.json", bytes "{}");
               ("base/preprocessor_config.json", bytes "{}");
               ("base/spk_dict.pt", bytes "speakers");
               ("ckpt/adapter_config.json", bytes "{}")].

(** No processor configuration. *)
Definition disk_no_processor : gmap string file :=
  delete "base/preprocessor_config.json" disk_full.

(** A processor configuration that is present and unreadable. *)
Definition disk_bad_processor : gmap string file :=
  <["base/preprocessor_config.json" := []]> disk_full.

(** No auxiliary file. *)
Definition disk_no_extra : gmap string file :=
  delete "base/spk_dict.pt" disk_full.

(** The target of the copy is already there, as a directory. *)
Definition disk_target_is_dir : gmap string file :=
  <["out/spk_dict.pt/old.bin" := bytes "old"]> disk_full.

Definition start (d : gmap string file) : world := init_world (Ext ∅ d).

(** The store once model and tokenizer are loaded from "base". *)
Definition before_processor (d : gmap string file) : ext :=
  snd (load_tokenizer "base" (snd (load_model "base" (Ext ∅ d)))).

(** [merge_lora("base", "ckpt")] and variants. *)
Definition run_default (d : gmap string file) : result unit * world :=
  merge_lora lib "base" "ckpt" None None None (start d).

Definition run_on (submodule_name save_path : string) (d : gmap string file)
  : result unit * world :=
  merge_lora lib "base" "ckpt" None (Some submodule_name) (Some save_path) (start d).

End Demo.

(** ** Further readings of a run *)

(** One of the [save_pretrained] calls of step 6, issued from store [e],
    raises [x]; the last two indices are the store left behind and the
    save calls issued. *)
Inductive saving_raises (L : library) (save_path : string) (model tok : loc)
    (processor : option loc) (e : ext) (x : exn)
  : ext -> list (event * ext) -> Prop :=
| model_save_raises e6 :
    save_pretrained L model save_path e = (Raise x, e6) ->
    saving_raises L save_path model tok processor e x e6
      [(EvSavePretrained RModel model save_path, e)]
| tokenizer_save_raises e6 e7 :
    save_pretrained L model save_path e = (Ok tt, e6) ->
    save_pretrained L tok save_path e6 = (Raise x, e7) ->
    saving_raises L save_path model tok processor e x e7
      [(EvSavePretrained RModel model save_path, e);
       (EvSavePretrained RTokenizer tok save_path, e6)]
| processor_save_raises p e6 e7 e8 :
    processor = Some p ->
    save_pretrained L model save_path e = (Ok tt, e6) ->
    save_pretrained L tok save_path e6 = (Ok tt, e7) ->
    save_pretrained L p save_path e7 = (Raise x, e8) ->
    saving_raises L save_path model tok processor e x e8
      [(EvSavePretrained RModel model save_path, e);
       (EvSavePretrained RTokenizer tok save_path, e6);
       (EvSavePretrained RProcessor p save_path, e7)].

(** The calls of a complete run, in program order. *)
Definition call_sequence (base lora extra_file submodule_name save_path : string)
    (model tok : loc) (processor : option loc) (v : val) (lm merged : loc)
  : list event :=
  [EvFromPretrained AutoModel base;
   EvFromPretrained AutoTokenizer base;
   EvFromPretrained AutoProcessor base;
   EvHasattr model submodule_name;
   EvGetattr model submodule_name;
   EvLoadAdapter v lora;
   EvMergeAndUnload lm;
   EvSetattr model submodule_name (VRef merged);
   EvSavePretrained RModel model save_path;
   EvSavePretrained RTokenizer tok save_path]
  ++ match processor with
     | Some p => [EvSavePretrained RProcessor p save_path]
     | None => []
     end
  ++ [EvExists (os_path_join base extra_file);
      EvCopy (os_path_join base extra_file) (os_path_join save_path extra_file)].

(** A call that reads or writes a path does so at the path [merge_lora]
    derives from its parameters for that call. *)
Definition uses_given_paths (base lora extra_file save_path : string) (ev : event) : Prop :=
  match ev with
  | EvFromPretrained _ p => p = base
  | EvLoadAdapter _ p => p = lora
  | EvSavePretrained _ _ p => p = save_path
  | EvExists p => p = os_path_join base extra_file
  | EvCopy src dst =>
      src = os_path_join base extra_file /\ dst = os_path_join save_path extra_file
  | _ => True
  end.


(** The end of a run goes through: the existence test of [src] says no,
    or it says yes and [shutil.copy(src, dst)] returns.  The indices are
    whether a copy was made and the store left behind. *)
Inductive copy_step (L : library) (src dst : string) (e : ext) : bool -> ext -> Prop :=
| copy_skipped :
    path_exists e src = false ->
    copy_step L src dst e false e
| copy_done d e' :
    path_exists e src = true ->
    py_copy L src dst e = (Ok d, e') ->
    copy_step L src dst e true e'.

(** ** Demo libraries with a failing step *)

Module Faulty.

(** [merge_and_unload] fails on every adapter model. *)
Definition merge (lm : loc) (e : ext) : result loc * ext :=
  (Raise (Exn RuntimeError "cannot merge adapter layers"), e).

Definition lib_merge_fails : library :=
  Library Demo.load_model Demo.load_tokenizer Demo.load_processor
    Demo.load_adapter merge Demo.save
    Demo.isdir Demo.samefile Demo.copy_fails Demo.repr.

(** The model is written, then the disk is full. *)
Definition save (o : loc) (path : string) (e : ext) : result unit * ext :=
  match o with
  | 1%positive => Demo.save o path e
  | _ => (Raise (Exn OSError "No space left on device"), e)
  end.

Definition lib_disk_full : library :=
  Library Demo.load_model Demo.load_tokenizer Demo.load_processor
    Demo.load_adapter Demo.merge save
    Demo.isdir Demo.samefile Demo.copy_fails Demo.repr.

End Faulty.

(** * Properties *)

#[local] Arguments String.append : simpl never.
#[local] Arguments os_path_join : simpl never.
#[local] Arguments missing_submodule_msg : simpl never.
#[local] Arguments copied_msg : simpl never.
#[local] Arguments skipped_msg : simpl never.
#[local] Arguments set_attr : simpl never.
#[local] Arguments py_copy : simpl never.

Ltac run_with H := rewrite H; cbn.

Ltac unfold_run :=
  unfold merge_lora, bind, try_except_Exception, hasattr, getattr, setattr,
    os_path_exists, shutil_copy, call, print, ret, raise,
    py_hasattr, py_getattr, py_setattr, py_exists; cbn.

Lemma calls_since_app w0 e out tr :
  calls_since w0 (World e out (w_trace w0 ++ tr)) = tr.*1.
Proof. unfold calls_since; cbn. now rewrite drop_app_length. Qed.

Lemma printed_since_app w0 e out tr :
  printed_since w0 (World e (w_stdout w0 ++ out) tr) = out.
Proof. unfold printed_since; cbn. now rewrite drop_app_length. Qed.

Lemma printed_since_same w0 e tr :
  printed_since w0 (World e (w_stdout w0) tr) = [].
Proof. unfold printed_since; cbn. apply drop_all. Qed.

Lemma os_path_join_absolute a b : startswith_sep b = true -> os_path_join a b = b.
Proof. intros H. unfold os_path_join. now rewrite H. Qed.

Lemma lookup_app_since {A} (l k : list A) i :
  (l ++ k) !! (length l + i)%nat = k !! i.
Proof. rewrite lookup_app_r by lia. f_equal; lia. Qed.

Lemma attr_set_attr_eq o name v e :
  attr (set_attr o name v e) o name = Some v.
Proof.
  unfold attr, set_attr; cbn.
  rewrite lookup_insert_eq; cbn. apply lookup_insert_eq.
Qed.

Lemma attr_set_attr_other_name o name v e n :
  n <> name -> attr (set_attr o name v e) o n = attr e o n.
Proof.
  intros Hn. unfold attr, set_attr; cbn.
  rewrite lookup_insert_eq; cbn. rewrite lookup_insert_ne by congruence.
  destruct (heap e !! o); cbn; [reflexivity | apply lookup_empty].
Qed.

Lemma heap_set_attr_other_object o name v e o' :
  o' <> o -> heap (set_attr o name v e) !! o' = heap e !! o'.
Proof. intros Ho. unfold set_attr; cbn. now rewrite lookup_insert_ne by congruence. Qed.

Lemma disk_set_attr o name v e : disk (set_attr o name v e) = disk e.
Proof. reflexivity. Qed.

Lemma missing_submodule_msg_names name :
  exists pre post, missing_submodule_msg name = pre +:+ name +:+ post.
Proof. now exists "The model does not have a submodule named '", "'.". Qed.

(** What a returning [shutil.copy] has done. *)
Lemma py_copy_returns L src dst e d e' :
  py_copy L src dst e = (Ok d, e') ->
  exists c,
    disk e !! src = Some c
    /\ d = copy_destination L e src dst
    /\ d <> src
    /\ e' = Ext (heap e) (<[d := c]> (disk e)).
Proof.
  unfold py_copy.
  destruct (same_file L e src (copy_destination L e src dst)) eqn:Hsame;
    [discriminate |].
  destruct (copyfile_fails L src _ e) as [[x e''] |]; [discriminate |].
  destruct (disk e !! src) as [c |] eqn:Hc; [| discriminate].
  intros [= <- <-]. exists c. repeat split.
  intros Heq. unfold same_file, path_exists in Hsame.
  rewrite Heq, Hc, bool_decide_eq_true_2 in Hsame by reflexivity.
  discriminate Hsame.
Qed.

(** A regular file is never copied onto its own path. *)
Lemma py_copy_onto_itself L src e c :
  disk e !! src = Some c ->
  exists msg, py_copy L src src e = (Raise (Exn SameFileError msg), e).
Proof.
  intros Hc. unfold py_copy, copy_destination, is_dir, same_file, path_exists.
  rewrite Hc, bool_decide_eq_true_2 by reflexivity. cbn. eauto.
Qed.


Ltac settle :=
  cbn [fst snd]; rewrite <- ?app_assoc;
  rewrite ?calls_since_app, ?printed_since_app; cbn;
  try reflexivity.

Ltac destruct_calls :=
  repeat match goal with
  | |- context [AutoModel_from_pretrained ?L ?p ?e] =>
      destruct (AutoModel_from_pretrained L p e) as [[?|?] ?] eqn:?; cbn
  | |- context [AutoTokenizer_from_pretrained ?L ?p ?e] =>
      destruct (AutoTokenizer_from_pretrained L p e) as [[?|?] ?] eqn:?; cbn
  | |- context [AutoProcessor_from_pretrained ?L ?p ?e] =>
      destruct (AutoProcessor_from_pretrained L p e) as [[?|?] ?] eqn:?; cbn
  | |- context [PeftModel_from_pretrained ?L ?v ?p ?e] =>
      destruct (PeftModel_from_pretrained L v p e) as [[?|?] ?] eqn:?; cbn
  | |- context [merge_and_unload ?L ?o ?e] =>
      destruct (merge_and_unload L o e) as [[?|?] ?] eqn:?; cbn
  | |- context [save_pretrained ?L ?o ?p ?e] =>
      destruct (save_pretrained L o p e) as [[?|?] ?] eqn:?; cbn
  | |- context [is_Exception ?x] => destruct (is_Exception x) eqn:?; cbn
  | |- context [attr ?e ?o ?n] => destruct (attr e o n) eqn:?; cbn
  | |- context [path_exists ?e ?p] => destruct (path_exists e p) eqn:?; cbn
  | |- context [py_copy ?L ?s ?d ?e] =>
      destruct (py_copy L s d e) as [[?|?] ?] eqn:?; cbn
  | |- context [match ?o with Some _ => _ | None => _ end] => destruct o eqn:?; cbn
  end.

(** Each step of a complete run is one of the calls that returned. *)
Ltac went_through :=
  repeat match goal with |- _ /\ _ => split end;
  first
    [ eassumption
    | reflexivity
    | apply attr_set_attr_eq
    | cbn; eassumption
    | cbn; reflexivity
    | eapply copy_done; eassumption
    | apply copy_skipped; assumption
    | cbn; rewrite <- ?app_assoc; reflexivity ].

Ltac other_line H :=
  unfold processor_not_found_msg, loaded_msg, copied_msg, skipped_msg in H;
  cbv [String.append] in H; discriminate H.

Ltac not_in_lines H :=
  repeat (apply elem_of_cons in H as [H | H]; [other_line H |]);
  now apply elem_of_nil in H.

Section Run.

Variable L : library.
Variables base lora : string.
Variables xf sn sp : option string.
Variable w0 : world.

Local Abbreviation extra_file := (default default_extra_file xf).
Local Abbreviation submodule_name := (default default_submodule_name sn).
Local Abbreviation save_path := (default default_save_path sp).
Local Abbreviation source_file := (os_path_join base extra_file).
Local Abbreviation target_file := (os_path_join save_path extra_file).
Local Abbreviation run := (merge_lora L base lora xf sn sp w0).

(** C3. A failure of [AutoModel.from_pretrained] or of
    [AutoTokenizer.from_pretrained] is the outcome of [merge_lora]: the very
    exception the library raised, with nothing printed and no call issued
    after the failing one. *)
Theorem load_failure_propagates x e' tr :
  loading_raises L base (w_ext w0) x e' tr ->
  run = (Raise x, World e' (w_stdout w0) (w_trace w0 ++ tr)).
Proof.
  intros [e1 H1 | m e1 e2 H1 H2]; unfold_run.
  - now run_with H1.
  - run_with H1. run_with H2. now rewrite <- app_assoc.
Qed.

Section Loaded.

Variables model tok : loc.
Variable rp : result loc.
Variables e1 e2 e3 : ext.
Hypothesis Hmodel : AutoModel_from_pretrained L base (w_ext w0) = (Ok model, e1).
Hypothesis Htok : AutoTokenizer_from_pretrained L base e1 = (Ok tok, e2).
Hypothesis Hproc : AutoProcessor_from_pretrained L base e2 = (rp, e3).

Local Abbreviation trace_load :=
  [(EvFromPretrained AutoModel base, w_ext w0);
   (EvFromPretrained AutoTokenizer base, e1);
   (EvFromPretrained AutoProcessor base, e2)].

Ltac loaded := unfold_run; run_with Hmodel; run_with Htok; run_with Hproc.

(** C1. Once step 1 is over (model and tokenizer loaded, the processor
    loaded or its failure taken by [except Exception]), a [submodule_name]
    that is not an attribute of the model makes [merge_lora] raise
    [AttributeError] with a message that contains the name; the only calls
    issued are the three loads and the [hasattr] test, so no adapter is
    loaded or merged and nothing is saved or copied. *)
Theorem missing_submodule_raises_AttributeError :
  recoverable rp = true ->
  attr e3 model submodule_name = None ->
  run = (Raise (Exn AttributeError (missing_submodule_msg submodule_name)),
         World e3 (w_stdout w0 ++ stdout_of_load rp)
               (w_trace w0 ++ trace_load ++ [(EvHasattr model submodule_name, e3)]))
  /\ (exists pre post,
        missing_submodule_msg submodule_name = pre +:+ submodule_name +:+ post)
  /\ forallb (fun ev => negb (is_adapter_step ev || is_output_step ev))
       (calls_since w0 (snd run)) = true.
Proof.
  intros Hrec Hattr.
  assert (Hrun : run = (Raise (Exn AttributeError (missing_submodule_msg submodule_name)),
         World e3 (w_stdout w0 ++ stdout_of_load rp)
               (w_trace w0 ++ trace_load ++ [(EvHasattr model submodule_name, e3)]))).
  { loaded. destruct rp as [p | x]; cbn in *.
    - rewrite Hattr; cbn. now rewrite <- !app_assoc.
    - rewrite Hrec; cbn. rewrite Hattr; cbn. now rewrite <- !app_assoc. }
  split; [exact Hrun | split; [apply missing_submodule_msg_names |]].
  rewrite Hrun; cbn [snd]. now rewrite calls_since_app.
Qed.

(** C2, as the code has it. With model and tokenizer loaded, a failure [x]
    of [AutoProcessor.from_pretrained] is taken by the handler exactly when
    [x] is an instance of [Exception], whatever its cause: the run prints
    the not-found message, goes on to the [hasattr] test in the store the
    failed load left, and never calls [save_pretrained] on a processor.
    A failure outside [Exception] is the outcome of [merge_lora]. *)
Theorem processor_failure_taken_iff_Exception x :
  rp = Raise x ->
  if is_Exception x
  then take 4 (calls_since w0 (snd run))
         = trace_load.*1 ++ [EvHasattr model submodule_name]
       /\ take 2 (printed_since w0 (snd run)) = [processor_not_found_msg; loaded_msg]
       /\ snd <$> w_trace (snd run) !! (length (w_trace w0) + 3)%nat = Some e3
       /\ forallb (fun ev => negb (is_processor_save ev)) (calls_since w0 (snd run)) = true
  else run = (Raise x, World e3 (w_stdout w0) (w_trace w0 ++ trace_load)).
Proof.
  intros ->. destruct (is_Exception x) eqn:Hx.
  - loaded. rewrite Hx; cbn.
    destruct_calls; settle; rewrite lookup_app_since; repeat split.
  - loaded. rewrite Hx; cbn. now rewrite <- !app_assoc.
Qed.

(** X7. With model and tokenizer loaded, the line "Processor configuration
    not found, skipping processor load." is among the lines a run prints
    exactly when the processor load raised an instance of [Exception]:
    no other line of the script can be mistaken for it, and a failure
    outside [Exception] ends the run before anything is printed. *)
Theorem not_found_line_iff_processor_failed :
  processor_not_found_msg ∈ printed_since w0 (snd run)
  <-> exists exc, rp = Raise exc /\ is_Exception exc = true.
Proof.
  loaded. destruct rp as [p | exc]; cbn.
  - destruct_calls; settle;
      (split; [intros H; not_in_lines H | intros (exc & Hexc & _); discriminate Hexc]).
  - destruct (is_Exception exc) eqn:Hexc; cbn.
    + destruct_calls; settle; (split; [eauto | intros _; apply list_elem_of_here]).
    + rewrite printed_since_same. split.
      * intros H. now apply elem_of_nil in H.
      * intros (exc' & Heq & Hexc'). injection Heq as <-. congruence.
Qed.

Section Merged.

Hypothesis Hrec : recoverable rp = true.
Variable v : val.
Hypothesis Hattr : attr e3 model submodule_name = Some v.

Local Abbreviation trace_found :=
  (trace_load ++
   [(EvHasattr model submodule_name, e3);
    (EvGetattr model submodule_name, e3);
    (EvLoadAdapter v lora, e3)]).

Local Abbreviation stdout_found :=
  (stdout_of_load rp ++
   ["Successfully extracted submodule: " +:+ submodule_name +:+ "."]).

Ltac found :=
  loaded; destruct rp as [p | y]; cbn in *;
  [ | rewrite Hrec; cbn ];
  do 2 (rewrite Hattr; cbn).

(** X1. With the submodule found, a failure of [PeftModel.from_pretrained]
    is the outcome of [merge_lora]: the same exception, after the
    extraction line has been printed, and with no merge, save or copy. *)
Lemma adapter_load_failure_propagates x e4 :
  PeftModel_from_pretrained L v lora e3 = (Raise x, e4) ->
  merge_lora L base lora xf sn sp w0
  = (Raise x, World e4 (w_stdout w0 ++ stdout_found) (w_trace w0 ++ trace_found)).
Proof.
  intros Hpeft. found; run_with Hpeft; now rewrite <- !app_assoc.
Qed.

(** X2. With the adapter loaded, a failure of [merge_and_unload] is the
    outcome of [merge_lora]: the same exception, with [setattr] not
    reached, so the model still has its unmerged submodule as far as the
    script is concerned, and nothing saved or copied. *)
Lemma merge_failure_propagates x lm e4 e5 :
  PeftModel_from_pretrained L v lora e3 = (Ok lm, e4) ->
  merge_and_unload L lm e4 = (Raise x, e5) ->
  merge_lora L base lora xf sn sp w0
  = (Raise x,
     World e5 (w_stdout w0 ++ stdout_found ++ ["LoRA weights loaded successfully."])
           (w_trace w0 ++ trace_found ++ [(EvMergeAndUnload lm, e4)])).
Proof.
  intros Hpeft Hmerge. found; run_with Hpeft; run_with Hmerge; now rewrite <- !app_assoc.
Qed.

Variables lm merged : loc.
Variables e4 e5 : ext.
Hypothesis Hpeft : PeftModel_from_pretrained L v lora e3 = (Ok lm, e4).
Hypothesis Hmerge : merge_and_unload L lm e4 = (Ok merged, e5).

(** The store in which [model.save_pretrained] is called. *)
Local Abbreviation e_sub := (set_attr model submodule_name (VRef merged) e5).

Local Abbreviation trace_merged :=
  (trace_load ++
   [(EvHasattr model submodule_name, e3);
    (EvGetattr model submodule_name, e3);
    (EvLoadAdapter v lora, e3);
    (EvMergeAndUnload lm, e4);
    (EvSetattr model submodule_name (VRef merged), e5);
    (EvSavePretrained RModel model save_path, e_sub)]).

Local Abbreviation stdout_merged :=
  (stdout_of_load rp ++
   ["Successfully extracted submodule: " +:+ submodule_name +:+ ".";
    "LoRA weights loaded successfully.";
    "LoRA weights merged successfully."]).

Ltac merged :=
  loaded; destruct rp as [p | x]; cbn in *;
  [ | rewrite Hrec; cbn ];
  do 2 (rewrite Hattr; cbn); run_with Hpeft; run_with Hmerge.

(** C10. After the merge returned in store [e5], the next call of the run
    is [model.save_pretrained], and it is issued in the store that
    [setattr] made of [e5]: there [submodule_name] of the model is the
    merged submodule, every other attribute of the model, every other
    object and the disk are as the merge left them. *)
Theorem substitution_changes_one_attribute :
  (exists rest, w_trace (snd run) = w_trace w0 ++ trace_merged ++ rest)
  /\ attr e_sub model submodule_name = Some (VRef merged)
  /\ (forall n, n <> submodule_name -> attr e_sub model n = attr e5 model n)
  /\ (forall o, o <> model -> heap e_sub !! o = heap e5 !! o)
  /\ disk e_sub = disk e5.
Proof.
  split; [| split; [apply attr_set_attr_eq | split; [| split]]].
  - merged; destruct_calls; rewrite <- ?app_assoc; cbn;
      eexists; repeat f_equal.
  - intros n Hn. now apply attr_set_attr_other_name.
  - intros o Ho. now apply heap_set_attr_other_object.
  - apply disk_set_attr.
Qed.

Local Abbreviation trace_substituted :=
  (trace_load ++
   [(EvHasattr model submodule_name, e3);
    (EvGetattr model submodule_name, e3);
    (EvLoadAdapter v lora, e3);
    (EvMergeAndUnload lm, e4);
    (EvSetattr model submodule_name (VRef merged), e5)]).

(** X3. A failure of any [save_pretrained] call of step 6 is the outcome
    of [merge_lora]: the same exception, with the later saves, the "saved"
    line, the existence test and the copy all skipped.  Nothing is undone:
    the store at the end is the one the failing call left, which holds
    whatever the earlier saves wrote. *)
Theorem save_failure_propagates exc e' tr :
  saving_raises L save_path model tok (processor_of rp) e_sub exc e' tr ->
  run = (Raise exc,
         World e' (w_stdout w0 ++ stdout_merged) (w_trace w0 ++ trace_substituted ++ tr)).
Proof.
  intros [e6 H1 | e6 e7 H1 H2 | q e6 e7 e8 Hq H1 H2 H3]; merged;
    try discriminate Hq; try (injection Hq as ->);
    run_with H1; try run_with H2; try run_with H3;
    now rewrite <- !app_assoc.
Qed.

Section Saved.

Variables e6 e7 e8 : ext.
Hypothesis Hsave_model : save_pretrained L model save_path e_sub = (Ok tt, e6).
Hypothesis Hsave_tok : save_pretrained L tok save_path e6 = (Ok tt, e7).
Hypothesis Hsave_proc :
  match processor_of rp with
  | Some p => save_pretrained L p save_path e7 = (Ok tt, e8)
  | None => e8 = e7
  end.

Local Abbreviation trace_saved :=
  (trace_merged ++
   [(EvSavePretrained RTokenizer tok save_path, e6)] ++
   match processor_of rp with
   | Some p => [(EvSavePretrained RProcessor p save_path, e7)]
   | None => []
   end).

Local Abbreviation stdout_saved :=
  (stdout_merged ++ ["Merged model and configuration saved to " +:+ save_path +:+ "."]).

Ltac saved :=
  loaded; destruct rp as [p | x]; cbn in *;
  [ | rewrite Hrec; cbn ];
  do 2 (rewrite Hattr; cbn); run_with Hpeft; run_with Hmerge;
  run_with Hsave_model; run_with Hsave_tok;
  [ run_with Hsave_proc | subst e8 ].

Lemma run_saved_absent :
  path_exists e8 source_file = false ->
  run = (Ok tt,
         World e8 (w_stdout w0 ++ stdout_saved ++ [skipped_msg extra_file base])
               (w_trace w0 ++ trace_saved ++ [(EvExists source_file, e8)])).
Proof.
  intros Hex. saved; rewrite Hex; cbn; now rewrite <- !app_assoc.
Qed.

Lemma run_saved_copy r e9 :
  path_exists e8 source_file = true ->
  py_copy L source_file target_file e8 = (r, e9) ->
  run = (match r with Ok _ => Ok tt | Raise exc => Raise exc end,
         World e9
               (w_stdout w0 ++ stdout_saved ++
                match r with
                | Ok _ => [copied_msg extra_file base save_path]
                | Raise _ => []
                end)
               (w_trace w0 ++ trace_saved ++
                [(EvExists source_file, e8); (EvCopy source_file target_file, e8)])).
Proof.
  intros Hex Hcopy.
  saved; rewrite Hex; cbn; rewrite Hcopy; destruct r; cbn;
    rewrite <- ?app_assoc; cbn; rewrite ?app_nil_r; reflexivity.
Qed.

Lemma run_saved_step copied e9 :
  copy_step L source_file target_file e8 copied e9 ->
  run = (Ok tt,
         World e9
               (w_stdout w0 ++ stdout_saved ++
                [if copied
                 then copied_msg extra_file base save_path
                 else skipped_msg extra_file base])
               (w_trace w0 ++ trace_saved ++ [(EvExists source_file, e8)] ++
                if copied then [(EvCopy source_file target_file, e8)] else [])).
Proof.
  intros [Hex | d e' Hex Hcopy].
  - rewrite (run_saved_absent Hex). now rewrite app_nil_r.
  - now rewrite (run_saved_copy _ _ Hex Hcopy).
Qed.

(** C4. When steps 1 to 6 have gone through and the auxiliary file is not
    on disk at [os.path.join(base_model_path, extra_file)], [merge_lora]
    returns normally: the last call is the existence test, no copy is
    issued, the store is the one step 6 left, and the last line printed is
    the skip message. *)
Theorem absent_extra_file_is_skipped :
  path_exists e8 source_file = false ->
  fst run = Ok tt
  /\ w_ext (snd run) = e8
  /\ forallb (fun ev => negb (is_copy ev)) (calls_since w0 (snd run)) = true
  /\ last (calls_since w0 (snd run)) = Some (EvExists source_file)
  /\ last (printed_since w0 (snd run)) = Some (skipped_msg extra_file base).
Proof.
  intros Hex. rewrite (run_saved_absent Hex); cbn [fst snd w_ext].
  rewrite calls_since_app, printed_since_app.
  destruct rp; cbn; repeat split.
Qed.

(** C5. When the processor load failed with an [Exception], every other
    library call returns and the end of the run goes through (the
    auxiliary file is not there, or [shutil.copy] returns), [merge_lora]
    returns normally; [save_pretrained] is called on the model and on the
    tokenizer and on nothing else, and the store at the end is what the
    end of the run made of the store the tokenizer's save left. *)
Theorem absent_processor_is_not_saved x copied e9 :
  rp = Raise x ->
  copy_step L source_file target_file e7 copied e9 ->
  fst run = Ok tt
  /\ take 2 (printed_since w0 (snd run)) = [processor_not_found_msg; loaded_msg]
  /\ calls_since w0 (snd run) =
       [EvFromPretrained AutoModel base;
        EvFromPretrained AutoTokenizer base;
        EvFromPretrained AutoProcessor base;
        EvHasattr model submodule_name;
        EvGetattr model submodule_name;
        EvLoadAdapter v lora;
        EvMergeAndUnload lm;
        EvSetattr model submodule_name (VRef merged);
        EvSavePretrained RModel model save_path;
        EvSavePretrained RTokenizer tok save_path;
        EvExists source_file]
       ++ (if copied then [EvCopy source_file target_file] else [])
  /\ forallb (fun ev => negb (is_processor_save ev)) (calls_since w0 (snd run)) = true
  /\ w_ext (snd run) = e9.
Proof.
  intros Hrp Hstep.
  assert (He : e8 = e7) by (generalize Hsave_proc; rewrite Hrp; trivial).
  rewrite <- He in Hstep.
  rewrite (run_saved_step _ _ Hstep); cbn [fst snd w_ext].
  rewrite calls_since_app, printed_since_app, Hrp; cbn.
  destruct copied; repeat split.
Qed.

(** C8, as the code has it. When the auxiliary file is on disk with
    contents [c] at [os.path.join(base_model_path, extra_file)] once step 6
    is over, a run that returns normally ends with the copy, and the
    destination of [shutil.copy] holds [c]: that destination is
    [os.path.join(save_path, extra_file)] unless this path is an existing
    directory, and then it is the source's base name inside it.  The
    source still holds [c]. *)
Theorem present_extra_file_is_copied c :
  disk e8 !! source_file = Some c ->
  fst run = Ok tt ->
  exists d,
    d = (if is_dir L e8 target_file
         then os_path_join target_file (basename source_file)
         else target_file)
    /\ disk (w_ext (snd run)) !! d = Some c
    /\ disk (w_ext (snd run)) !! source_file = Some c
    /\ last (calls_since w0 (snd run)) = Some (EvCopy source_file target_file)
    /\ last (printed_since w0 (snd run)) = Some (copied_msg extra_file base save_path).
Proof.
  intros Hc Hok.
  assert (Hex : path_exists e8 source_file = true)
    by (unfold path_exists; now rewrite Hc).
  destruct (py_copy L source_file target_file e8) as [r e9] eqn:Hcopy.
  rewrite (run_saved_copy _ _ Hex Hcopy) in Hok |- *.
  destruct r as [d | exc]; [| discriminate Hok].
  destruct (py_copy_returns _ _ _ _ _ _ Hcopy) as (c' & Hc' & Hd & Hne & ->).
  assert (c' = c) as -> by congruence.
  exists d. cbn [fst snd w_ext disk].
  rewrite calls_since_app, printed_since_app.
  split; [exact Hd |].
  split; [apply lookup_insert_eq |].
  split; [now rewrite lookup_insert_ne |].
  destruct rp; cbn; split; reflexivity.
Qed.

(** X4. Merging in place ([save_path] equal to [base_model_path]) or
    giving an absolute [extra_file] makes source and target of the copy
    the same path.  When that file exists, the run fails with
    [SameFileError] at the copy, after everything has been saved and the
    "saved" line printed; the store is the one step 6 left. *)
Theorem same_path_copy_is_refused c :
  disk e8 !! source_file = Some c ->
  save_path = base \/ startswith_sep extra_file = true ->
  exists msg,
    run = (Raise (Exn SameFileError msg),
           World e8 (w_stdout w0 ++ stdout_saved)
                 (w_trace w0 ++ trace_saved ++
                  [(EvExists source_file, e8); (EvCopy source_file target_file, e8)])).
Proof.
  intros Hc Hsame.
  assert (Heq : target_file = source_file).
  { destruct Hsame as [-> | Habs]; [reflexivity |].
    now rewrite !os_path_join_absolute. }
  assert (Hex : path_exists e8 source_file = true)
    by (unfold path_exists; now rewrite Hc).
  destruct (py_copy_onto_itself L _ _ _ Hc) as (msg & Hcopy).
  assert (Hcopy' : py_copy L source_file target_file e8
                   = (Raise (Exn SameFileError msg), e8))
    by (rewrite Heq; exact Hcopy).
  exists msg. rewrite (run_saved_copy _ _ Hex Hcopy'); cbn.
  now rewrite app_nil_r.
Qed.

(** X5. When the processor loads, every other library call returns and
    the end of the run goes through (the auxiliary file is not there, or
    [shutil.copy] returns), the run returns normally, the processor is
    saved to [save_path] right after the tokenizer, and the lines printed
    are the five progress lines and the copy report, without the
    not-found line. *)
Theorem loaded_processor_is_saved q copied e9 :
  rp = Ok q ->
  copy_step L source_file target_file e8 copied e9 ->
  fst run = Ok tt
  /\ calls_since w0 (snd run) =
       [EvFromPretrained AutoModel base;
        EvFromPretrained AutoTokenizer base;
        EvFromPretrained AutoProcessor base;
        EvHasattr model submodule_name;
        EvGetattr model submodule_name;
        EvLoadAdapter v lora;
        EvMergeAndUnload lm;
        EvSetattr model submodule_name (VRef merged);
        EvSavePretrained RModel model save_path;
        EvSavePretrained RTokenizer tok save_path;
        EvSavePretrained RProcessor q save_path;
        EvExists source_file]
       ++ (if copied then [EvCopy source_file target_file] else [])
  /\ printed_since w0 (snd run) =
       [loaded_msg;
        "Successfully extracted submodule: " +:+ submodule_name +:+ ".";
        "LoRA weights loaded successfully.";
        "LoRA weights merged successfully.";
        "Merged model and configuration saved to " +:+ save_path +:+ ".";
        if copied
        then copied_msg extra_file base save_path
        else skipped_msg extra_file base]
  /\ w_ext (snd run) = e9.
Proof.
  intros Hrp Hstep.
  rewrite (run_saved_step _ _ Hstep); cbn [fst snd w_ext].
  rewrite calls_since_app, printed_since_app, Hrp; cbn.
  destruct copied; repeat split.
Qed.

End Saved.

End Merged.

End Loaded.

(** C7. A run that returns normally has gone through every step once and
    in program order, each step working on what the one before it left:
    the model, tokenizer and processor are loaded from [base_model_path]
    (the processor's failure, if any, taken by the handler); the attribute
    [submodule_name] of the loaded model is found; the adapter is loaded
    onto that attribute's value; the adapter model is merged; the merged
    submodule is bound to the attribute of the model; model, tokenizer and
    the processor if there is one are saved to [save_path]; the existence
    test is made and, if the file is there, the copy.  The store, the
    lines printed and the calls of the run are exactly those of these
    steps. *)
Theorem successful_run_is_linear :
  fst run = Ok tt ->
  exists model tok rp e1 e2 e3 v lm merged e4 e5 e6 e7 e8 copied e9,
    AutoModel_from_pretrained L base (w_ext w0) = (Ok model, e1)
    /\ AutoTokenizer_from_pretrained L base e1 = (Ok tok, e2)
    /\ AutoProcessor_from_pretrained L base e2 = (rp, e3)
    /\ recoverable rp = true
    /\ attr e3 model submodule_name = Some v
    /\ PeftModel_from_pretrained L v lora e3 = (Ok lm, e4)
    /\ merge_and_unload L lm e4 = (Ok merged, e5)
    /\ attr (set_attr model submodule_name (VRef merged) e5) model submodule_name
       = Some (VRef merged)
    /\ save_pretrained L model save_path (set_attr model submodule_name (VRef merged) e5)
       = (Ok tt, e6)
    /\ save_pretrained L tok save_path e6 = (Ok tt, e7)
    /\ match processor_of rp with
       | Some p => save_pretrained L p save_path e7 = (Ok tt, e8)
       | None => e8 = e7
       end
    /\ copy_step L source_file target_file e8 copied e9
    /\ snd run =
       World e9
         (w_stdout w0 ++ stdout_of_load rp ++
          ["Successfully extracted submodule: " +:+ submodule_name +:+ ".";
           "LoRA weights loaded successfully.";
           "LoRA weights merged successfully.";
           "Merged model and configuration saved to " +:+ save_path +:+ ".";
           if copied
           then copied_msg extra_file base save_path
           else skipped_msg extra_file base])
         (w_trace w0 ++
          [(EvFromPretrained AutoModel base, w_ext w0);
           (EvFromPretrained AutoTokenizer base, e1);
           (EvFromPretrained AutoProcessor base, e2);
           (EvHasattr model submodule_name, e3);
           (EvGetattr model submodule_name, e3);
           (EvLoadAdapter v lora, e3);
           (EvMergeAndUnload lm, e4);
           (EvSetattr model submodule_name (VRef merged), e5);
           (EvSavePretrained RModel model save_path,
            set_attr model submodule_name (VRef merged) e5);
           (EvSavePretrained RTokenizer tok save_path, e6)]
          ++ match processor_of rp with
             | Some p => [(EvSavePretrained RProcessor p save_path, e7)]
             | None => []
             end
          ++ [(EvExists source_file, e8)]
          ++ (if copied then [(EvCopy source_file target_file, e8)] else [])).
Proof.
  unfold_run; destruct_calls; cbn [fst snd]; intros Hrun; try discriminate Hrun;
    repeat match goal with u : unit |- _ => destruct u end;
    first
      [ solve [eexists _, _, (Ok _), _, _, _, _, _, _, _, _, _, _, _, true, _; went_through]
      | solve [eexists _, _, (Ok _), _, _, _, _, _, _, _, _, _, _, _, false, _; went_through]
      | solve [eexists _, _, (Raise _), _, _, _, _, _, _, _, _, _, _, _, true, _; went_through]
      | solve [eexists _, _, (Raise _), _, _, _, _, _, _, _, _, _, _, _, false, _; went_through] ].
Qed.

(** C9. Assume the loading and merging entry points of the library leave
    the files selected by [P] (the output location) as they are.  If
    [merge_lora] raises and no [save_pretrained] call has been issued, then
    the run stopped within steps 1 to 4 (its calls are an initial part of
    theirs), no copy has been issued either, and every file selected by [P]
    is as it was before the run. *)
Theorem failure_before_save_leaves_output (P : string -> Prop) x :
  loads_keep L P ->
  fst run = Raise x ->
  forallb (fun ev => negb (is_save ev)) (calls_since w0 (snd run)) = true ->
  (exists model v lm,
     calls_since w0 (snd run) `prefix_of`
       [EvFromPretrained AutoModel base;
        EvFromPretrained AutoTokenizer base;
        EvFromPretrained AutoProcessor base;
        EvHasattr model submodule_name;
        EvGetattr model submodule_name;
        EvLoadAdapter v lora;
        EvMergeAndUnload lm])
  /\ forallb (fun ev => negb (is_output_step ev)) (calls_since w0 (snd run)) = true
  /\ forall p, P p -> disk (w_ext (snd run)) !! p = disk (w_ext w0) !! p.
Proof.
  intros (K1 & K2 & K3 & K4 & K5).
  unfold_run; destruct_calls; intros Hrun; try discriminate Hrun;
    settle; intros Hns; try discriminate Hns;
    (split; [eexists _, _, _; eexists; cbn; reflexivity |]);
    (split; [reflexivity |]); intros q Hq;
    repeat match goal with
    | H : AutoModel_from_pretrained L _ _ = (_, ?e) |- context [disk ?e !! q] =>
        rewrite (K1 _ _ _ _ H q Hq)
    | H : AutoTokenizer_from_pretrained L _ _ = (_, ?e) |- context [disk ?e !! q] =>
        rewrite (K2 _ _ _ _ H q Hq)
    | H : AutoProcessor_from_pretrained L _ _ = (_, ?e) |- context [disk ?e !! q] =>
        rewrite (K3 _ _ _ _ H q Hq)
    | H : PeftModel_from_pretrained L _ _ _ = (_, ?e) |- context [disk ?e !! q] =>
        rewrite (K4 _ _ _ _ _ H q Hq)
    | H : merge_and_unload L _ _ = (_, ?e) |- context [disk ?e !! q] =>
        rewrite (K5 _ _ _ _ H q Hq)
    end; reflexivity.
  Unshelve. all: first [exact 1%positive | exact VNone].
Qed.

(** X6. Whatever the library does, [merge_lora] returns normally exactly
    when the last line it printed is the copy report ("... copied from
    ..." or "... not found in ..., skipping copy."): a run that raises
    stops at an earlier line or prints nothing. *)
Theorem returns_iff_last_line_reports_copy :
  fst run = Ok tt
  <-> (last (printed_since w0 (snd run)) = Some (copied_msg extra_file base save_path)
       \/ last (printed_since w0 (snd run)) = Some (skipped_msg extra_file base)).
Proof.
  unfold_run; destruct_calls; settle; rewrite ?printed_since_same; cbn;
    (split;
     [ intros Hrun; first [discriminate Hrun | now left | now right]
     | intros [H | H]; first [reflexivity | discriminate H | injection H as H; other_line H] ]).
Qed.

(** X8. Whatever the library does, every call of a run that takes a path
    takes the one the parameters give: the loads read [base_model_path],
    the adapter load reads [lora_checkpoint_path], every [save_pretrained]
    goes to [save_path], and the copy goes from
    [os.path.join(base_model_path, extra_file)] to
    [os.path.join(save_path, extra_file)]. *)
Theorem calls_use_given_paths :
  Forall (uses_given_paths base lora extra_file save_path) (calls_since w0 (snd run)).
Proof.
  unfold_run; destruct_calls; settle; repeat constructor.
Qed.

(** X9. Whatever the library does, the calls of a run, failed or not, are
    an initial part of the one program order: no step is repeated, skipped
    or taken out of order, and a failure only cuts the sequence short. *)
Theorem run_is_initial_part_of_sequence :
  exists model tok processor v lm merged,
    calls_since w0 (snd run) `prefix_of`
      call_sequence base lora extra_file submodule_name save_path
        model tok processor v lm merged.
Proof.
  unfold_run; destruct_calls; settle; unfold call_sequence;
    solve [ eexists _, _, (Some _), _, _, _; eexists; cbn; reflexivity
          | eexists _, _, None, _, _, _; eexists; cbn; reflexivity ].
  Unshelve. all: first [exact 1%positive | exact VNone].
Qed.


End Run.

(** C6. The defaults of the three optional parameters are "spk_dict.pt",
    "thinker" and "./merged_model_checkpoint", and an omitted argument
    stands for its default. *)
Theorem default_arguments :
  default_extra_file = "spk_dict.pt"
  /\ default_submodule_name = "thinker"
  /\ default_save_path = "./merged_model_checkpoint"
  /\ forall L base lora xf sn sp,
       merge_lora L base lora xf sn sp
       = merge_lora L base lora
           (Some (default "spk_dict.pt" xf))
           (Some (default "thinker" sn))
           (Some (default "./merged_model_checkpoint" sp)).
Proof. repeat split. Qed.

(** * Runs on the demo library *)

Lemma demo_loads_keep : loads_keep Demo.lib (fun _ => True).
Proof.
  repeat split; cbn;
    unfold Demo.load_model, Demo.load_tokenizer, Demo.load_processor,
      Demo.load_adapter, Demo.merge.
  - intros path e r e' H p _. destruct (path_exists _ _); now inversion H.
  - intros path e r e' H p _. destruct (path_exists _ _); now inversion H.
  - intros path e r e' H p _.
    destruct (disk e !! _) as [[| ? ?] |]; now inversion H.
  - intros sub path e r e' H p _.
    destruct sub; try (now inversion H).
    destruct (path_exists _ _); now inversion H.
  - intros lm e r e' H p _.
    destruct (attr e lm "base_model") as [[] |]; now inversion H.
Qed.

(** [merge_lora("base", "ckpt")] on an empty disk: the model cannot be loaded. *)
Lemma load_failure_propagates_witness :
  fst (Demo.run_default ∅)
  = Raise (Exn OSError "base does not appear to have a file named config.json").
Proof.
  unfold Demo.run_default.
  erewrite (load_failure_propagates Demo.lib "base" "ckpt" None None None (Demo.start ∅));
    [reflexivity | apply model_raises; reflexivity].
Defined.

(** The demo model has [thinker] and [talker], and no [vision]. *)
Lemma missing_submodule_raises_AttributeError_witness :
  fst (Demo.run_on "vision" "out" Demo.disk_full)
  = Raise (Exn AttributeError "The model does not have a submodule named 'vision'.").
Proof.
  unfold Demo.run_on.
  edestruct (missing_submodule_raises_AttributeError Demo.lib "base" "ckpt" None
               (Some "vision") (Some "out") (Demo.start Demo.disk_full)) as (Hrun & _);
    [reflexivity .. |].
  rewrite Hrun. reflexivity.
Defined.

(** C2 fails on the code. The processor configuration is on disk and
    cannot be parsed: the load raises [ValueError], which is no absence,
    and [merge_lora] swallows it all the same: it prints the not-found
    message first and returns normally. *)
Lemma unreadable_processor_config_is_swallowed :
  path_exists (Ext ∅ Demo.disk_bad_processor) "base/preprocessor_config.json" = true
  /\ w_trace (snd (Demo.run_default Demo.disk_bad_processor)) !! 2%nat
     = Some (EvFromPretrained AutoProcessor "base",
             Demo.before_processor Demo.disk_bad_processor)
  /\ fst (AutoProcessor_from_pretrained Demo.lib "base"
            (Demo.before_processor Demo.disk_bad_processor))
     = Raise (Exn ValueError "preprocessor_config.json is not a valid JSON file")
  /\ fst (Demo.run_default Demo.disk_bad_processor) = Ok tt
  /\ head (w_stdout (snd (Demo.run_default Demo.disk_bad_processor)))
     = Some "Processor configuration not found, skipping processor load.".
Proof.
  repeat split; vm_compute; reflexivity.
Qed.

Lemma processor_failure_taken_iff_Exception_witness :
  take 2 (printed_since (Demo.start Demo.disk_bad_processor)
            (snd (Demo.run_default Demo.disk_bad_processor)))
  = [processor_not_found_msg; loaded_msg].
Proof.
  pose proof (processor_failure_taken_iff_Exception Demo.lib "base" "ckpt" None None None
                (Demo.start Demo.disk_bad_processor) _ _ _ _ _ _ eq_refl eq_refl eq_refl
                _ eq_refl) as H.
  cbn [is_Exception exn_cls] in H. exact (proj1 (proj2 H)).
Defined.

Lemma absent_extra_file_is_skipped_witness :
  fst (Demo.run_default Demo.disk_no_extra) = Ok tt
  /\ last (printed_since (Demo.start Demo.disk_no_extra)
             (snd (Demo.run_default Demo.disk_no_extra)))
     = Some "File 'spk_dict.pt' not found in base, skipping copy.".
Proof.
  edestruct (absent_extra_file_is_skipped Demo.lib "base" "ckpt" None None None
               (Demo.start Demo.disk_no_extra)) as (Hok & _ & _ & _ & Hmsg);
    [reflexivity .. |].
  split; [exact Hok | exact Hmsg].
Defined.

Lemma absent_processor_is_not_saved_witness :
  fst (Demo.run_default Demo.disk_no_processor) = Ok tt
  /\ forallb (fun ev => negb (is_processor_save ev))
       (calls_since (Demo.start Demo.disk_no_processor)
          (snd (Demo.run_default Demo.disk_no_processor))) = true.
Proof.
  edestruct (absent_processor_is_not_saved Demo.lib "base" "ckpt" None None None
               (Demo.start Demo.disk_no_processor)) as (Hok & _ & _ & Hnone & _);
    [reflexivity .. | eapply copy_done; reflexivity |].
  split; [exact Hok | exact Hnone].
Defined.

(** C8 fails on the code. The path [os.path.join(save_path, extra_file)]
    is an existing directory: the auxiliary file is there at the source,
    the run returns normally, and no file holding its bytes is at that
    path: [shutil.copy] has put them inside the directory. *)
Lemma copy_lands_inside_directory_target :
  Demo.disk_target_is_dir !! "base/spk_dict.pt" = Some (Demo.bytes "speakers")
  /\ fst (Demo.run_on "thinker" "out" Demo.disk_target_is_dir) = Ok tt
  /\ disk (w_ext (snd (Demo.run_on "thinker" "out" Demo.disk_target_is_dir)))
       !! os_path_join "out" "spk_dict.pt" = None
  /\ disk (w_ext (snd (Demo.run_on "thinker" "out" Demo.disk_target_is_dir)))
       !! "out/spk_dict.pt/spk_dict.pt" = Some (Demo.bytes "speakers").
Proof.
  repeat split; vm_compute; reflexivity.
Qed.

Lemma present_extra_file_is_copied_witness :
  disk (w_ext (snd (Demo.run_default Demo.disk_full)))
    !! "./merged_model_checkpoint/spk_dict.pt"
  = Some (Demo.bytes "speakers").
Proof.
  edestruct (present_extra_file_is_copied Demo.lib "base" "ckpt" None None None
               (Demo.start Demo.disk_full)) as (d & Hd & Hcopy & _);
    [reflexivity .. | vm_compute; reflexivity |].
  vm_compute in Hd. subst d. exact Hcopy.
Defined.

(** The complete run on the demo disk: the adapter is loaded onto the
    value of [thinker] and the run ends with the copy. *)
Lemma successful_run_is_linear_witness :
  exists model v lm merged e3 e4 e5 e8 copied e9,
    attr e3 model "thinker" = Some v
    /\ PeftModel_from_pretrained Demo.lib v "ckpt" e3 = (Ok lm, e4)
    /\ merge_and_unload Demo.lib lm e4 = (Ok merged, e5)
    /\ copy_step Demo.lib "base/spk_dict.pt" "./merged_model_checkpoint/spk_dict.pt"
         e8 copied e9
    /\ w_ext (snd (Demo.run_default Demo.disk_full)) = e9.
Proof.
  destruct (successful_run_is_linear Demo.lib "base" "ckpt" None None None
              (Demo.start Demo.disk_full))
    as (model & tok & rp & e1 & e2 & e3 & v & lm & merged & e4 & e5 & e6 & e7 & e8
        & copied & e9 & _ & _ & _ & _ & Hattr & Hpeft & Hmerge & _ & _ & _ & _
        & Hstep & Hrun);
    [vm_compute; reflexivity |].
  exists model, v, lm, merged, e3, e4, e5, e8, copied, e9.
  split; [exact Hattr | split; [exact Hpeft | split; [exact Hmerge |]]].
  split; [exact Hstep |].
  unfold Demo.run_default. now rewrite Hrun.
Defined.

(** The adapter checkpoint is missing: the run fails at step 3 and the
    output directory has no model file. *)
Lemma failure_before_save_leaves_output_witness :
  disk (w_ext (snd (merge_lora Demo.lib "base" "nowhere" None None (Some "out")
                      (Demo.start Demo.disk_full))))
    !! "out/model.safetensors" = None.
Proof.
  edestruct (failure_before_save_leaves_output Demo.lib "base" "nowhere" None None
               (Some "out") (Demo.start Demo.disk_full) (fun _ => True))
    as (_ & _ & Hdisk);
    [exact demo_loads_keep | vm_compute; reflexivity | vm_compute; reflexivity |].
  rewrite Hdisk by exact I. reflexivity.
Defined.

Lemma substitution_changes_one_attribute_witness :
  exists e5 e_sub,
    w_trace (snd (Demo.run_default Demo.disk_full)) !! 7%nat
      = Some (EvSetattr 1%positive "thinker" (VRef 2%positive), e5)
    /\ w_trace (snd (Demo.run_default Demo.disk_full)) !! 8%nat
       = Some (EvSavePretrained RModel 1%positive "./merged_model_checkpoint", e_sub)
    /\ attr e_sub 1%positive "thinker" = Some (VRef 2%positive)
    /\ attr e_sub 1%positive "talker" = attr e5 1%positive "talker".
Proof.
  edestruct (substitution_changes_one_attribute Demo.lib "base" "ckpt" None None None
               (Demo.start Demo.disk_full)) as ((rest & Htr) & Hsub & Hother & _);
    [reflexivity .. |].
  eexists _, _. unfold Demo.run_default. rewrite Htr.
  split; [reflexivity | split; [reflexivity | split; [exact Hsub |]]].
  apply Hother. discriminate.
Defined.

(** ** Further runs *)

(** The adapter checkpoint directory has no adapter configuration. *)
Lemma adapter_load_failure_propagates_witness :
  fst (merge_lora Demo.lib "base" "nowhere" None None (Some "out")
         (Demo.start Demo.disk_full))
  = Raise (Exn ValueError "Can't find 'adapter_config.json' at 'nowhere'").
Proof.
  erewrite (adapter_load_failure_propagates Demo.lib "base" "nowhere" None None
              (Some "out") (Demo.start Demo.disk_full));
    cycle 1; [reflexivity .. | reflexivity].
Defined.

Lemma merge_failure_propagates_witness :
  fst (merge_lora Faulty.lib_merge_fails "base" "ckpt" None None (Some "out")
         (Demo.start Demo.disk_full))
  = Raise (Exn RuntimeError "cannot merge adapter layers").
Proof.
  erewrite (merge_failure_propagates Faulty.lib_merge_fails "base" "ckpt" None None
              (Some "out") (Demo.start Demo.disk_full));
    cycle 1; [reflexivity .. | reflexivity].
Defined.

(** The disk fills up after the model is written: the run fails at the
    tokenizer and the model file stays in the output directory. *)
Lemma save_failure_propagates_witness :
  fst (merge_lora Faulty.lib_disk_full "base" "ckpt" None None (Some "out")
         (Demo.start Demo.disk_full))
  = Raise (Exn OSError "No space left on device")
  /\ disk (w_ext (snd (merge_lora Faulty.lib_disk_full "base" "ckpt" None None (Some "out")
                         (Demo.start Demo.disk_full))))
       !! "out/model.safetensors"
     = Some (Demo.bytes "model.safetensors").
Proof.
  erewrite (save_failure_propagates Faulty.lib_disk_full "base" "ckpt" None None
              (Some "out") (Demo.start Demo.disk_full));
    cycle 1;
    [reflexivity .. | apply tokenizer_save_raises; reflexivity | split; reflexivity].
Defined.

(** Merging in place: [save_path] is the base model directory. *)
Lemma same_path_copy_is_refused_witness :
  exists msg, fst (Demo.run_on "thinker" "base" Demo.disk_full)
              = Raise (Exn SameFileError msg).
Proof.
  edestruct (same_path_copy_is_refused Demo.lib "base" "ckpt" None (Some "thinker")
               (Some "base") (Demo.start Demo.disk_full)) as (msg & Hrun);
    [reflexivity .. | left; reflexivity |].
  exists msg. unfold Demo.run_on. now rewrite Hrun.
Defined.

Lemma loaded_processor_is_saved_witness :
  fst (Demo.run_default Demo.disk_full) = Ok tt
  /\ printed_since (Demo.start Demo.disk_full) (snd (Demo.run_default Demo.disk_full))
     = ["Successfully loaded the original model, tokenizer, and processor (if available).";
        "Successfully extracted submodule: thinker.";
        "LoRA weights loaded successfully.";
        "LoRA weights merged successfully.";
        "Merged model and configuration saved to ./merged_model_checkpoint.";
        "File 'spk_dict.pt' copied from base to ./merged_model_checkpoint."].
Proof.
  edestruct (loaded_processor_is_saved Demo.lib "base" "ckpt" None None None
               (Demo.start Demo.disk_full)) as (Hok & _ & Hout & _);
    [reflexivity .. | eapply copy_done; reflexivity |].
  split; [exact Hok | exact Hout].
Defined.

(** No processor configuration on disk: the line is printed. *)
Lemma not_found_line_iff_processor_failed_witness :
  processor_not_found_msg
  ∈ printed_since (Demo.start Demo.disk_no_processor)
      (snd (Demo.run_default Demo.disk_no_processor)).
Proof.
  eapply (not_found_line_iff_processor_failed Demo.lib "base" "ckpt" None None None
            (Demo.start Demo.disk_no_processor));
    [reflexivity .. |].
  eexists; split; reflexivity.
Defined.


